(** * CRIS4MIS: the sample-construction pipeline of [utils/dataset.py]

    A shallow embedding of [tokenize], [RefDataset] and [EndoVisDataset]
    and the properties of the keep-aspect-ratio transform, the tensor
    conversion, the tokenizer adapter and the mode-dependent packaging.

    Conventions of the embedding:
    - Python [int] is [Z]; Python [float], [np.float32] and the torch
      float tensors are exact rationals [Q] (rounding is not modelled);
    - an exception is a value of [exn], a fallible computation returns
      [res A];
    - [np.random.choice] and the augmentation pipeline are finite
      distributions: a computation that may draw returns [M A], a list
      of weighted outcomes;
    - OpenCV, LMDB, the BPE tokenizer and the augmentation pipeline are
      collaborators outside the repository's [dataset.py]; they are the
      fields of the class [Externals]. *)

From Stdlib Require Import ZArith QArith Qminmax Qfield Lqa List String Ascii Bool Lia.
From Stdlib Require Import DecimalString Strings.Byte.
From stdpp Require Import gmap strings.
Import ListNotations.

Local Open Scope string_scope.
Local Open Scope Z_scope.

(** ** Affine maps in the plane *)

Module Affine.

Local Open Scope Q_scope.

(** A point [(x, y)] of an [np.float32] array of shape [(n, 2)]. *)
Definition point : Type := (Q * Q)%type.

(** Three points: the argument arrays [src] and [dst] of
    [cv2.getAffineTransform], shape [(3, 2)]. *)
Definition triangle : Type := (point * point * point)%type.

(** The 2x3 matrix [[m00 m01 m02] [m10 m11 m12]] OpenCV returns. *)
Record mat : Type := Mat {
  m00 : Q; m01 : Q; m02 : Q;
  m10 : Q; m11 : Q; m12 : Q
}.

(** [M . (x, y, 1)^T]. *)
Definition apply (m : mat) (p : point) : point :=
  (m00 m * fst p + m01 m * snd p + m02 m,
   m10 m * fst p + m11 m * snd p + m12 m).

Definition pt_eq (p q : point) : Prop := fst p == fst q /\ snd p == snd q.

Definition mat_eq (m n : mat) : Prop :=
  m00 m == m00 n /\ m01 m == m01 n /\ m02 m == m02 n /\
  m10 m == m10 n /\ m11 m == m11 n /\ m12 m == m12 n.

(** Twice the signed area of a triangle: the determinant of the linear
    system [cv2.getAffineTransform] solves. *)
Definition det (t : triangle) : Q :=
  let '(p0, p1, p2) := t in
  (fst p1 - fst p0) * (snd p2 - snd p0) - (fst p2 - fst p0) * (snd p1 - snd p0).

(** One row of the solution: the coefficients [(a, b, c)] with
    [a*x_i + b*y_i + c = u_i] for the three source points. *)
Definition solve_row (t : triangle) (u0 u1 u2 : Q) : Q * Q * Q :=
  let '(p0, p1, p2) := t in
  let d := det t in
  let a := ((u1 - u0) * (snd p2 - snd p0) - (u2 - u0) * (snd p1 - snd p0)) / d in
  let b := ((fst p1 - fst p0) * (u2 - u0) - (fst p2 - fst p0) * (u1 - u0)) / d in
  (a, b, u0 - a * fst p0 - b * snd p0).

(** [cv2.getAffineTransform(src, dst)]: the affine transform through
    three pairs of corresponding points, [dst_i = M . (src_i, 1)^T]
    (OpenCV solves the 6x6 system; here by Cramer's rule). *)
Definition getAffineTransform (src dst : triangle) : mat :=
  let '(q0, q1, q2) := dst in
  let '(a, b, c) := solve_row src (fst q0) (fst q1) (fst q2) in
  let '(d, e, f) := solve_row src (snd q0) (snd q1) (snd q2) in
  Mat a b c d e f.

End Affine.

(** ** [getTransformMat] (the same method in [RefDataset] and
       [EndoVisDataset]) *)

Module Transform.

Import Affine.
Local Open Scope Q_scope.

(** The locals of lines 196-200. *)
Record geometry : Type := Geometry {
  scale : Q; new_h : Q; new_w : Q; bias_x : Q; bias_y : Q
}.

(** [ori_h, ori_w = img_size; inp_h, inp_w = self.input_size] and the
    four assignments that follow. *)
Definition geometry_of (img_size input_size : Z * Z) : geometry :=
  let '(ori_h, ori_w) := img_size in
  let '(inp_h, inp_w) := input_size in
  let scale := Qmin (inject_Z inp_h / inject_Z ori_h) (inject_Z inp_w / inject_Z ori_w) in
  let new_h := inject_Z ori_h * scale in
  let new_w := inject_Z ori_w * scale in
  let bias_x := (inject_Z inp_w - new_w) / 2 in
  let bias_y := (inject_Z inp_h - new_h) / 2 in
  Geometry scale new_h new_w bias_x bias_y.

Definition src_of (img_size : Z * Z) : triangle :=
  let '(ori_h, ori_w) := img_size in
  ((0, 0), (inject_Z ori_w, 0), (0, inject_Z ori_h)).

Definition dst_of (g : geometry) : triangle :=
  ((bias_x g, bias_y g),
   (new_w g + bias_x g, bias_y g),
   (bias_x g, new_h g + bias_y g)).

Definition getTransformMat (input_size img_size : Z * Z) (inverse : bool)
  : mat * option mat :=
  let g := geometry_of img_size input_size in
  let src := src_of img_size in
  let dst := dst_of g in
  let mat := getAffineTransform src dst in
  if inverse then (mat, Some (getAffineTransform dst src))
  else (mat, None).

End Transform.

(** ** Exceptions, fallible results and random draws *)

(** The exceptions the module can raise, by their Python class; the two
    raised by [dataset.py] itself carry their message. *)
Inductive exn : Type :=
| RuntimeError (msg : string)
| AssertionError (msg : string)
| IndexError
| KeyError (key : string)
| ValueError
| TypeError
| AttributeError (attr : string)
| CvError
| LmdbError
| FileNotFoundError.

Inductive res (A : Type) : Type :=
| Ok (a : A)
| Err (e : exn).
Arguments Ok {A} a.
Arguments Err {A} e.

#[global] Instance res_ret : MRet res := fun _ a => Ok a.
#[global] Instance res_bind : MBind res := fun _ _ f r =>
  match r with
  | Ok a => f a
  | Err e => Err e
  end.

Definition is_ok {A} (r : res A) : bool :=
  match r with Ok _ => true | Err _ => false end.

(** A finite distribution over results: every element is an outcome
    with its weight. A computation that never draws is a single outcome
    of weight 1. *)
Definition M (A : Type) : Type := list (Q * res A).

Definition lift {A} (r : res A) : M A := [(1%Q, r)].
Definition raise {A} (e : exn) : M A := lift (Err e).

#[global] Instance M_ret : MRet M := fun _ a => lift (Ok a).
#[global] Instance M_bind : MBind M := fun _ _ f m =>
  flat_map (fun o : Q * res _ =>
              match snd o with
              | Ok a => map (fun o' : Q * res _ => (fst o * fst o', snd o')%Q) (f a)
              | Err e => [(fst o, Err e)]
              end) m.

(** The results that can occur, and the weight of an event. *)
Definition outcomes {A} (m : M A) : list (res A) := map snd m.

Definition prob {A} (m : M A) (ev : res A -> bool) : Q :=
  fold_right (fun o acc => if ev (snd o) then (fst o + acc)%Q else acc) 0%Q m.

(** Two distributions with the same outcomes in the same order, and
    equal weights as rationals. *)
Definition same_dist {A} (m m' : M A) : Prop :=
  Forall2 (fun o o' => (fst o == fst o')%Q /\ snd o = snd o') m m'.


(** [np.random.choice(n)] for an int [n]: a sample of [np.arange(n)],
    uniform as no [p] is given; [ValueError] unless [n > 0]. *)
Definition np_random_choice (n : Z) : M Z :=
  if n <=? 0 then raise ValueError
  else map (fun i => ((1 / inject_Z n)%Q, Ok (Z.of_nat i))) (seq 0 (Z.to_nat n)).

(** ** Python lists and strings *)

(** [l[i]]: a negative index counts from the end. *)
Definition py_getitem {A} (l : list A) (i : Z) : res A :=
  let n := Z.of_nat (length l) in
  let j := if i <? 0 then i + n else i in
  if (j <? 0) || (n <=? j) then Err IndexError
  else match l !! Z.to_nat j with
       | Some x => Ok x
       | None => Err IndexError
       end.

(** [l[:n]]. *)
Definition py_slice_to {A} (l : list A) (n : Z) : list A :=
  if n <? 0 then take (Z.to_nat (Z.of_nat (length l) + n)) l
  else take (Z.to_nat n) l.

(** [l[-1] = x]. *)
Definition py_set_last {A} (l : list A) (x : A) : res (list A) :=
  match l with
  | [] => Err IndexError
  | _ => Ok (<[Nat.pred (length l) := x]> l)
  end.

(** [str(n)] for an int. *)
Definition str (n : Z) : string := NilZero.string_of_int (Z.to_int n).

Definition startswith (p s : string) : bool := String.prefix p s.

Definition endswith (p s : string) : bool :=
  String.eqb p (String.substring (String.length s - String.length p)
                                 (String.length p) s)
  && (String.length p <=? String.length s)%nat.

(** [os.path.join(a, b)] (POSIX). *)
Definition os_path_join (a b : string) : string :=
  if startswith "/" b then b
  else if String.eqb a "" || endswith "/" a then a +:+ b
  else a +:+ "/" +:+ b.

(** ** The tokenizer adapter *)

(** The byte-pair tokenizer [_tokenizer] of [simple_tokenizer.py]: its
    [encode] and the ids of the two special tokens in [encoder]. *)
Class Tokenizer : Type := {
  encode : string -> list Z;
  sot_token : Z;
  eot_token : Z
}.

Module Tokenize.
Section WithTokenizer.
Context `{Tokenizer}.

(** A [torch.LongTensor] of one or two dimensions. *)
Inductive tensor : Type :=
| T1 (v : list Z)
| T2 (rows : list (list Z)).

(** [torch.zeros(n, L, dtype=torch.long)]. *)
Definition torch_zeros (n : nat) (L : Z) : res (list (list Z)) :=
  if L <? 0
  then Err (RuntimeError "Trying to create tensor with negative dimension")
  else Ok (replicate n (replicate (Z.to_nat L) 0)).

(** [row[:n] = torch.tensor(tokens)] with [n = len(tokens)]: the slice
    has [min(n, len(row))] entries and must have the size of [tokens]. *)
Definition assign_prefix (row tokens : list Z) : res (list Z) :=
  if (length tokens <=? length row)%nat
  then Ok (tokens ++ drop (length tokens) row)%list
  else Err (RuntimeError "shape mismatch").

Definition too_long (text : string) (context_length : Z) : string :=
  "Input " +:+ text +:+ " is too long for context length " +:+ str context_length.

(** The body of the [for i, tokens in enumerate(all_tokens)] loop. *)
Definition tokenize_step (texts : list string) (context_length : Z)
    (truncate : bool) (i : nat) (tokens : list Z) (result : list (list Z))
  : res (list (list Z)) :=
  tokens ←
    (if Z.of_nat (length tokens) >? context_length then
       if truncate then
         py_set_last (py_slice_to tokens context_length) eot_token
       else
         Err (RuntimeError (too_long (default "" (texts !! i)) context_length))
     else Ok tokens);
  row ← assign_prefix (default [] (result !! i)) tokens;
  Ok (<[i := row]> result).

Fixpoint tokenize_loop (texts : list string) (context_length : Z)
    (truncate : bool) (i : nat) (all_tokens : list (list Z))
    (result : list (list Z)) : res (list (list Z)) :=
  match all_tokens with
  | [] => Ok result
  | tokens :: rest =>
      result ← tokenize_step texts context_length truncate i tokens result;
      tokenize_loop texts context_length truncate (S i) rest result
  end.

(** An entry of [all_tokens]. *)
Definition framed (text : string) : list Z :=
  ([sot_token] ++ encode text ++ [eot_token])%list.

Definition tokenize (texts : string + list string)
    (context_length : Z) (truncate : bool) : res tensor :=
  let texts := match texts with inl s => [s] | inr l => l end in
  let all_tokens := map framed texts in
  result ← torch_zeros (length all_tokens) context_length;
  result ← tokenize_loop texts context_length truncate 0 all_tokens result;
  Ok (T2 result).

(** [t.squeeze(0)]. *)
Definition squeeze0 (t : tensor) : tensor :=
  match t with
  | T2 [row] => T1 row
  | _ => t
  end.

(** [sent = sents[idx]] followed by
    [word_vec = tokenize(sent, word_length, True).squeeze(0)], as every
    train and val branch has them. *)
Definition sentence_vector (sents : list string) (idx : Z) (word_length : Z)
  : res tensor :=
  sent ← py_getitem sents idx;
  word_vec ← tokenize (inl sent) word_length true;
  Ok (squeeze0 word_vec).

End WithTokenizer.
End Tokenize.

(** ** Arrays and the sample-tensor converter *)

Module Tensor.

Local Open Scope Q_scope.

Inductive dtype : Type := uint8 | float32 | float64.

Definition dtype_eqb (a b : dtype) : bool :=
  match a, b with
  | uint8, uint8 | float32, float32 | float64, float64 => true
  | _, _ => false
  end.

(** A numpy array or torch tensor: its element type and its entries. *)
Record array (A : Type) : Type := Array { dtype_of : dtype; data : A }.
Arguments Array {A} _ _.
Arguments dtype_of {A} _.
Arguments data {A} _.

(** The three channels of a pixel, and per-channel constants of shape
    [(3, 1, 1)]. *)
Definition rgb (A : Type) : Type := (A * A * A)%type.

Definition channel {A} (c : nat) (p : rgb A) : A :=
  match c with
  | O => fst (fst p)
  | S O => snd (fst p)
  | _ => snd p
  end.

Definition rgb_map {A B} (f : nat -> A -> B) (p : rgb A) : rgb B :=
  (f 0%nat (channel 0 p), f 1%nat (channel 1 p), f 2%nat (channel 2 p)).

(** Shapes [(H, W)], [(H, W, 3)] and [(3, H, W)]. *)
Definition plane : Type := list (list Q).
Definition hwc : Type := list (list (rgb Q)).
Definition chw : Type := rgb plane.

(** [a[i][j]], when inside the array. *)
Definition at2 {A} (a : list (list A)) (i j : nat) : option A :=
  row ← a !! i; row !! j.

(** [a.shape[:2]]. *)
Definition shape2 {A} (a : list (list A)) : Z * Z :=
  (Z.of_nat (length a), Z.of_nat (length (hd [] a))).

(** [a.transpose((2, 0, 1))]: [out[c][i][j] = a[i][j][c]]. *)
Definition transpose_201 (a : hwc) : chw :=
  rgb_map (fun c _ => map (map (channel c)) a) (a, a, a).

(** [t.float()]. *)
Definition float {A} (t : array A) : array A := Array float32 (data t).

(** [isinstance(t, torch.FloatTensor)]. *)
Definition is_FloatTensor {A} (t : array A) : bool := dtype_eqb (dtype_of t) float32.

Definition plane_map (f : Q -> Q) (p : plane) : plane := map (map f) p.

(** [t.div_(s)] for a number [s]. *)
Definition div_ (t : array chw) (s : Q) : array chw :=
  Array (dtype_of t) (rgb_map (fun _ => plane_map (fun x => x / s)) (data t)).

(** [t.sub_(m)] and [t.div_(m)] for [m] of shape [(3, 1, 1)], broadcast
    over the two spatial axes. *)
Definition sub_chan (t : array chw) (m : rgb Q) : array chw :=
  Array (dtype_of t) (rgb_map (fun c => plane_map (fun x => x - channel c m)) (data t)).

Definition div_chan (t : array chw) (m : rgb Q) : array chw :=
  Array (dtype_of t) (rgb_map (fun c => plane_map (fun x => x / channel c m)) (data t)).

(** [a / 255.] on a numpy array: a new [float64] array. *)
Definition np_div (a : array plane) (s : Q) : array plane :=
  Array float64 (plane_map (fun x => x / s) (data a)).

(** [convert(self, img, mask=None)], lines 212-223 and 390-401. *)
Definition convert (mean std : rgb Q) (img : array hwc) (mask : option (array plane))
  : array chw * option (array plane) :=
  let img := Array (dtype_of img) (transpose_201 (data img)) in
  let img := if is_FloatTensor img then img else float img in
  let img := div_chan (sub_chan (div_ img 255) mean) std in
  let mask :=
    match mask with
    | Some mask => Some (if is_FloatTensor mask then mask else float mask)
    | None => None
    end in
  (img, mask).

(** The constants both constructors store in [self.mean] and [self.std]. *)
Definition clip_mean : rgb Q := (48145466 # 100000000, 4578275 # 10000000, 40821073 # 100000000).
Definition clip_std : rgb Q := (26862954 # 100000000, 26130258 # 100000000, 27577711 # 100000000).

(** [borderValue=[0.48145466 * 255, 0.4578275 * 255, 0.40821073 * 255]]. *)
Definition border_value : rgb Q :=
  ((48145466 # 100000000) * 255, (4578275 # 10000000) * 255, (40821073 # 100000000) * 255).

End Tensor.

(** ** Collaborators *)

Inductive interpolation : Type := INTER_LINEAR | INTER_CUBIC.

(** An entry of the store after [loads_pyarrow], and a manifest entry
    after [json.load]: both are dicts with the fields below. *)
Record ref_record : Type := RefRecord {
  ref_img : list Byte.byte;
  ref_mask : list Byte.byte;
  ref_seg_id : Z;
  ref_num_sents : Z;
  ref_sents : list string
}.

Record manifest_entry : Type := ManifestEntry {
  me_img_path : string;
  me_mask_path : string;
  me_num_sents : Z;
  me_sents : list string
}.

(** What a store value deserializes to: the integer under [__len__],
    the key list under [__keys__], a record under any other key. *)
Inductive pyobj : Type :=
| PyInt (n : Z)
| PyKeys (ks : list string)
| PyRef (r : ref_record).

Class Externals : Type := {
  ext_tokenizer :: Tokenizer;
  (** [cv2.imdecode(np.frombuffer(buf, np.uint8), flag)], [None] when
      the buffer does not decode. *)
  imdecode_color : list Byte.byte -> option (Tensor.array Tensor.hwc);
  imdecode_gray : list Byte.byte -> option (Tensor.array Tensor.plane);
  (** [cv2.imread(path)] and [cv2.imread(path, cv2.IMREAD_GRAYSCALE)],
      [None] when the file cannot be read. *)
  imread_color : string -> option (Tensor.array Tensor.hwc);
  imread_gray : string -> option (Tensor.array Tensor.plane);
  (** [cv2.cvtColor(img, cv2.COLOR_BGR2RGB)]. *)
  cvtColor_BGR2RGB : Tensor.array Tensor.hwc -> Tensor.array Tensor.hwc;
  (** [cv2.warpAffine(src, M, dsize, flags=.., borderValue=..)]. *)
  warpAffine_img : Tensor.array Tensor.hwc -> Affine.mat -> Z * Z -> interpolation ->
                   Tensor.rgb Q -> Tensor.array Tensor.hwc;
  warpAffine_mask : Tensor.array Tensor.plane -> Affine.mat -> Z * Z -> interpolation ->
                    Q -> Tensor.array Tensor.plane;
  (** [lmdb.open(path, ..)]: the read-only view of the store at [path],
      every value already passed through [loads_pyarrow]. *)
  lmdb_open : string -> res (gmap string pyobj);
  (** [json.load(open(path))]. *)
  json_load : string -> res (list manifest_entry);
  (** The [albumentations] pipeline built for a given input size: a
      random map on (image, mask) pairs. *)
  augment : Z -> Tensor.array Tensor.hwc -> Tensor.array Tensor.plane ->
            M (Tensor.array Tensor.hwc * Tensor.array Tensor.plane)
}.

(** ** What [__getitem__] returns *)

Record val_params : Type := ValParams {
  vp_mask_path : string;
  vp_inverse : option Affine.mat;
  vp_ori_size : Z * Z
}.

Record test_params : Type := TestParams {
  tp_ori_img : Tensor.array Tensor.hwc;
  tp_seg_id : Z;
  tp_mask_path : string;
  tp_inverse : option Affine.mat;
  tp_ori_size : Z * Z;
  tp_sents : list string
}.

Inductive sample : Type :=
| TrainSample (img : Tensor.array Tensor.chw) (word_vec : Tokenize.tensor)
              (mask : option (Tensor.array Tensor.plane))
| ValSample (img : Tensor.array Tensor.chw) (word_vec : Tokenize.tensor)
            (params : val_params)
| TestSample (img : Tensor.array Tensor.chw) (params : test_params).

Definition sample_img (s : sample) : Tensor.array Tensor.chw :=
  match s with
  | TrainSample img _ _ | ValSample img _ _ | TestSample img _ => img
  end.

Definition sample_word_vec (s : sample) : option Tokenize.tensor :=
  match s with
  | TrainSample _ w _ | ValSample _ w _ => Some w
  | TestSample _ _ => None
  end.

Definition sample_mask (s : sample) : option (Tensor.array Tensor.plane) :=
  match s with
  | TrainSample _ _ mask => mask
  | _ => None
  end.

(** [x] when [cv2] is handed an array, [cv2.error] when it is handed
    [None]. *)
Definition cv_arg {A} (x : option A) : res A :=
  match x with
  | Some a => Ok a
  | None => Err CvError
  end.

(** ** The store-backed dataset *)

(** The table [info] of known corpus sizes. *)
Definition info : gmap string (gmap string Z) :=
  list_to_map [
    ("refcoco", list_to_map [("train", 42404); ("val", 3811); ("val-test", 3811);
                             ("testA", 1975); ("testB", 1810)]);
    ("refcoco+", list_to_map [("train", 42278); ("val", 3805); ("val-test", 3805);
                              ("testA", 1975); ("testB", 1798)]);
    ("refcocog_u", list_to_map [("train", 42226); ("val", 2573); ("val-test", 2573);
                                ("test", 5023)]);
    ("refcocog_g", list_to_map [("train", 44822); ("val", 5000); ("val-test", 5000)])
  ].

(** [d[k]] on a dict. *)
Definition dict_getitem {V} (d : gmap string V) (k : string) : res V :=
  match d !! k with
  | Some v => Ok v
  | None => Err (KeyError k)
  end.

(** The calls made on the outside world, in order. *)
Inductive event : Type :=
| LmdbOpen (path : string).

Module RefDataset.
Section WithExternals.
Context `{Externals}.

(** The attributes of the object; [keys] does not exist before
    [_init_db] has assigned it. *)
Record t : Type := Build {
  lmdb_dir : string;
  mask_dir : string;
  dataset : string;
  split : string;
  mode : string;
  input_size : Z * Z;
  word_length : Z;
  mean : Tensor.rgb Q;
  std : Tensor.rgb Q;
  length : pyobj;
  env : option (gmap string pyobj);
  keys : option pyobj
}.

Definition set_env (self : t) (e : gmap string pyobj) : t :=
  Build (lmdb_dir self) (mask_dir self) (dataset self) (split self) (mode self)
        (input_size self) (word_length self) (mean self) (std self)
        (length self) (Some e) (keys self).

Definition set_length (self : t) (n : pyobj) : t :=
  Build (lmdb_dir self) (mask_dir self) (dataset self) (split self) (mode self)
        (input_size self) (word_length self) (mean self) (std self)
        n (env self) (keys self).

Definition set_keys (self : t) (ks : pyobj) : t :=
  Build (lmdb_dir self) (mask_dir self) (dataset self) (split self) (mode self)
        (input_size self) (word_length self) (mean self) (std self)
        (length self) (env self) (Some ks).

Definition __init__ (lmdb_dir mask_dir dataset split mode : string)
    (input_size word_length : Z) : res t :=
  by_dataset ← dict_getitem info dataset;
  n ← dict_getitem by_dataset split;
  Ok (Build lmdb_dir mask_dir dataset split mode (input_size, input_size)
            word_length Tensor.clip_mean Tensor.clip_std (PyInt n) None None).

(** [loads_pyarrow(txn.get(key))]: [txn.get] gives [None] for a key
    the store lacks, which does not deserialize. *)
Definition txn_get_loads (e : gmap string pyobj) (key : string) : res pyobj :=
  match e !! key with
  | Some v => Ok v
  | None => Err TypeError
  end.

Definition _init_db (self : t) (log : list event) : t * list event * res unit :=
  let log := (log ++ [LmdbOpen (lmdb_dir self)])%list in
  match lmdb_open (lmdb_dir self) with
  | Err e => (self, log, Err e)
  | Ok e =>
      let self := set_env self e in
      match txn_get_loads e "__len__" with
      | Err x => (self, log, Err x)
      | Ok n =>
          let self := set_length self n in
          match txn_get_loads e "__keys__" with
          | Err x => (self, log, Err x)
          | Ok ks => (set_keys self ks, log, Ok ())
          end
      end
  end.

Definition __len__ (self : t) : pyobj := length self.

(** [self.keys[index]]. *)
Definition keys_getitem (self : t) (index : Z) : res string :=
  match keys self with
  | None => Err (AttributeError "keys")
  | Some (PyKeys ks) => py_getitem ks index
  | Some (PyInt _) => Err TypeError
  | Some (PyRef _) => Err (KeyError (str index))
  end.

(** [ref[field]] needs [ref] to be a record. *)
Definition as_ref (o : pyobj) : res ref_record :=
  match o with
  | PyRef r => Ok r
  | _ => Err TypeError
  end.

Definition getTransformMat (self : t) (img_size : Z * Z) (inverse : bool) :=
  Transform.getTransformMat (input_size self) img_size inverse.

Definition convert (self : t) := Tensor.convert (mean self) (std self).

(** Lines 133-193 of [__getitem__]: everything after the store is
    known to be open. *)
Definition getitem_open (self : t) (index : Z) : M sample :=
  e ← lift (match env self with Some e => Ok e | None => Err (AttributeError "begin") end);
  key ← lift (keys_getitem self index);
  ref ← lift (o ← txn_get_loads e key; as_ref o);
  ori_img ← lift (cv_arg (imdecode_color (ref_img ref)));
  let img := cvtColor_BGR2RGB ori_img in
  let img_size := Tensor.shape2 (Tensor.data img) in
  let seg_id := ref_seg_id ref in
  let mask_path := os_path_join (mask_dir self) (str seg_id +:+ ".png") in
  idx ← np_random_choice (ref_num_sents ref);
  let sents := ref_sents ref in
  let '(mat, mat_inv) := getTransformMat self img_size true in
  let img := warpAffine_img img mat (input_size self) INTER_CUBIC Tensor.border_value in
  if String.eqb (mode self) "train" then
    mask ← lift (cv_arg (imdecode_gray (ref_mask ref)));
    let mask := warpAffine_mask mask mat (input_size self) INTER_LINEAR 0%Q in
    let mask := Tensor.np_div mask 255%Q in
    word_vec ← lift (Tokenize.sentence_vector sents idx (word_length self));
    let '(img, mask) := convert self img (Some mask) in
    mret (TrainSample img word_vec mask)
  else if String.eqb (mode self) "val" then
    word_vec ← lift (Tokenize.sentence_vector sents 0 (word_length self));
    let img := fst (convert self img None) in
    mret (ValSample img word_vec (ValParams mask_path mat_inv img_size))
  else
    let img := fst (convert self img None) in
    mret (TestSample img (TestParams ori_img seg_id mask_path mat_inv img_size sents)).

(** [__getitem__(self, index)]: the object and the log after the call,
    and the distribution of what the call returns or raises. *)
Definition __getitem__ (self : t) (log : list event) (index : Z)
  : t * list event * M sample :=
  let '(self, log, opened) :=
    match env self with
    | None => _init_db self log
    | Some _ => (self, log, Ok ())
    end in
  (self, log, _ ← lift opened; getitem_open self index).

(** A run of accesses, in order, keeping the object and the log. *)
Definition accesses (self : t) (log : list event) (indices : list Z) : t * list event :=
  fold_left (fun st index => fst (__getitem__ (fst st) (snd st) index)) indices (self, log).

(** The object can serve accesses from [store] with key list [ks]:
    either it has opened the store already, or the store opens and
    holds the two reserved entries. *)
Definition serves (self : t) (store : gmap string pyobj) (ks : list string) : Prop :=
  match env self with
  | Some e => e = store /\ keys self = Some (PyKeys ks)
  | None => lmdb_open (lmdb_dir self) = Ok store /\
            (exists n, store !! "__len__" = Some n) /\
            store !! "__keys__" = Some (PyKeys ks)
  end.

End WithExternals.
End RefDataset.

(** ** The manifest-backed dataset *)

Module EndoVisDataset.
Section WithExternals.
Context `{Externals}.

(** The attributes of the object; [transform] exists only when
    [use_vis_aug] is set, and is then [augment] at the input size. *)
Record t : Type := Build {
  data_root : string;
  data_file : string;
  data : list manifest_entry;
  mode : string;
  input_size : Z * Z;
  word_length : Z;
  sents_select_type : string;
  use_vis_aug : bool;
  mean : Tensor.rgb Q;
  std : Tensor.rgb Q;
  transform : option Z
}.

Definition __init__ (data_root data_file mode : string) (input_size word_length : Z)
    (sents_select_type : string) (use_vis_aug : bool) : res t :=
  data ← json_load (os_path_join data_root data_file);
  Ok (Build data_root data_file data mode (input_size, input_size) word_length
            sents_select_type use_vis_aug Tensor.clip_mean Tensor.clip_std
            (if use_vis_aug then Some input_size else None)).

Definition __len__ (self : t) : Z := Z.of_nat (List.length (data self)).

(** Lines 314-320: the sentence index for this access. *)
Definition select_idx (self : t) (ref : manifest_entry) : M Z :=
  if String.eqb (sents_select_type self) "random" then
    np_random_choice (me_num_sents ref)
  else if String.eqb (sents_select_type self) "first" then
    mret 0
  else
    raise (AssertionError ("Not support sents_select_type: " +:+ sents_select_type self)).

Definition getTransformMat (self : t) (img_size : Z * Z) (inverse : bool) :=
  Transform.getTransformMat (input_size self) img_size inverse.

Definition convert (self : t) := Tensor.convert (mean self) (std self).

(** [self.transform(image=img, mask=mask)]. *)
Definition call_transform (self : t) (img : Tensor.array Tensor.hwc)
    (mask : Tensor.array Tensor.plane) :=
  match transform self with
  | Some size => augment size img mask
  | None => raise (AttributeError "transform")
  end.

Definition __getitem__ (self : t) (index : Z) : M sample :=
  ref ← lift (py_getitem (data self) index);
  ori_img ← lift (cv_arg (imread_color (os_path_join (data_root self) (me_img_path ref))));
  let img := cvtColor_BGR2RGB ori_img in
  let img_size := Tensor.shape2 (Tensor.data img) in
  let mask_path := os_path_join (data_root self) (me_mask_path ref) in
  idx ← select_idx self ref;
  let sents := me_sents ref in
  let '(mat, mat_inv) := getTransformMat self img_size true in
  let img := warpAffine_img img mat (input_size self) INTER_CUBIC Tensor.border_value in
  if String.eqb (mode self) "train" then
    mask ← lift (cv_arg (imread_gray mask_path));
    let mask := warpAffine_mask mask mat (input_size self) INTER_LINEAR 0%Q in
    let mask := Tensor.np_div mask 255%Q in
    '(img, mask) ← (if use_vis_aug self then call_transform self img mask
                    else mret (img, mask));
    word_vec ← lift (Tokenize.sentence_vector sents idx (word_length self));
    let '(img, mask) := convert self img (Some mask) in
    mret (TrainSample img word_vec mask)
  else if String.eqb (mode self) "val" then
    word_vec ← lift (Tokenize.sentence_vector sents 0 (word_length self));
    let img := fst (convert self img None) in
    mret (ValSample img word_vec (ValParams mask_path mat_inv img_size))
  else
    let img := fst (convert self img None) in
    mret (TestSample img (TestParams ori_img 0 mask_path mat_inv img_size sents)).

End WithExternals.
End EndoVisDataset.

(** ** A small world to run the code in *)

Module Demo.

Definition tokenizer : Tokenizer := {|
  encode := fun s => map (fun c => Z.of_nat (nat_of_ascii c)) (list_ascii_of_string s);
  sot_token := 49406;
  eot_token := 49407
|}.

Definition gray_of (b : Byte.byte) : Q := inject_Z (Z.of_N (Byte.to_N b)).

(** Images of one row, a pixel per byte of the buffer. *)
Definition decode_color (buf : list Byte.byte) : option (Tensor.array Tensor.hwc) :=
  match buf with
  | [] => None
  | _ => Some (Tensor.Array Tensor.uint8 [map (fun b => (gray_of b, gray_of b, gray_of b)) buf])
  end.

Definition decode_gray (buf : list Byte.byte) : option (Tensor.array Tensor.plane) :=
  match buf with
  | [] => None
  | _ => Some (Tensor.Array Tensor.uint8 [map gray_of buf])
  end.

(** A canvas of the requested size filled with the top-left entry of
    the source. *)
Definition canvas {A} (a : Tensor.array (list (list A))) (dsize : Z * Z) (border : A)
  : Tensor.array (list (list A)) :=
  let x := default border (Tensor.at2 (Tensor.data a) 0 0) in
  Tensor.Array (Tensor.dtype_of a)
               (replicate (Z.to_nat (snd dsize)) (replicate (Z.to_nat (fst dsize)) x)).

Definition record0 : ref_record :=
  RefRecord [Byte.x0a; Byte.x14] [Byte.x00; Byte.xff] 7 2 ["scissors"; "the left tool"].

Definition record1 : ref_record :=
  RefRecord [Byte.x1e] [Byte.xff] 8 1 ["needle"].

Definition store : gmap string pyobj :=
  list_to_map [("__len__", PyInt 2); ("__keys__", PyKeys ["0"; "1"]);
               ("0", PyRef record0); ("1", PyRef record1)].

Definition manifest : list manifest_entry :=
  [ManifestEntry "img/0.png" "mask/0.png" 2 ["scissors"; "the left tool"];
   ManifestEntry "img/1.png" "mask/1.png" 1 ["needle"]].

Definition externals : Externals := {|
  ext_tokenizer := tokenizer;
  imdecode_color := decode_color;
  imdecode_gray := decode_gray;
  imread_color := fun path =>
    if String.eqb path "/data/img/0.png" then decode_color [Byte.x0a; Byte.x14]
    else if String.eqb path "/data/img/1.png" then decode_color [Byte.x1e]
    else None;
  imread_gray := fun path =>
    if String.eqb path "/data/mask/0.png" then decode_gray [Byte.x00; Byte.xff]
    else if String.eqb path "/data/mask/1.png" then decode_gray [Byte.xff]
    else None;
  cvtColor_BGR2RGB := fun a =>
    Tensor.Array (Tensor.dtype_of a)
                 (map (map (fun p => (snd p, snd (fst p), fst (fst p)))) (Tensor.data a));
  warpAffine_img := fun a _ dsize _ border => canvas a dsize border;
  warpAffine_mask := fun a _ dsize _ border => canvas a dsize border;
  lmdb_open := fun path => if String.eqb path "/lmdb/refcoco" then Ok store else Err LmdbError;
  json_load := fun path =>
    if String.eqb path "/data/manifest.json" then Ok manifest else Err FileNotFoundError;
  augment := fun _ img mask => mret (img, mask)
|}.

(** [RefDataset('/lmdb/refcoco', '/masks', 'refcoco', 'val', mode, 2, 4)]. *)
Definition ref_dataset (mode : string) : RefDataset.t :=
  RefDataset.Build "/lmdb/refcoco" "/masks" "refcoco" "val" mode (2, 2) 4
                   Tensor.clip_mean Tensor.clip_std (PyInt 3811) None None.

(** [EndoVisDataset('/data', 'manifest.json', mode, 2, 4, policy)]. *)
Definition endovis_dataset (mode policy : string) : EndoVisDataset.t :=
  EndoVisDataset.Build "/data" "manifest.json" manifest mode (2, 2) 4 policy false
                       Tensor.clip_mean Tensor.clip_std None.

End Demo.

(** * Properties *)

(** ** The affine solver *)

Module AffineFacts.
Import Affine.
Local Open Scope Q_scope.

Ltac unfold_affine :=
  unfold pt_eq, mat_eq, getAffineTransform, solve_row, det, apply in *;
  cbn [fst snd m00 m01 m02 m10 m11 m12] in *.

(** On a proper source triangle the solution sends every source point
    to its destination point. *)
Lemma getAffineTransform_maps (s d : triangle) :
  ~ det s == 0 ->
  let m := getAffineTransform s d in
  pt_eq (apply m (fst (fst s))) (fst (fst d)) /\
  pt_eq (apply m (snd (fst s))) (snd (fst d)) /\
  pt_eq (apply m (snd s)) (snd d).
Proof.
  destruct s as [[[x0 y0] [x1 y1]] [x2 y2]], d as [[[u0 v0] [u1 v1]] [u2 v2]].
  unfold_affine. intros Hs. repeat split; field; assumption.
Qed.

(** ... and it is the only 2x3 matrix that does. *)
Lemma getAffineTransform_unique (s d : triangle) (m : mat) :
  ~ det s == 0 ->
  pt_eq (apply m (fst (fst s))) (fst (fst d)) ->
  pt_eq (apply m (snd (fst s))) (snd (fst d)) ->
  pt_eq (apply m (snd s)) (snd d) ->
  mat_eq m (getAffineTransform s d).
Proof.
  destruct s as [[[x0 y0] [x1 y1]] [x2 y2]], d as [[[u0 v0] [u1 v1]] [u2 v2]].
  destruct m as [a b c e f g].
  unfold_affine. intros Hs [A0 B0] [A1 B1] [A2 B2].
  repeat split.
  all: rewrite <- ?A0, <- ?A1, <- ?A2, <- ?B0, <- ?B1, <- ?B2; field; assumption.
Qed.

(** Swapping the two triangles gives the inverse map, at every point of
    the plane. *)
Lemma getAffineTransform_inverse (s d : triangle) (p : point) :
  ~ det s == 0 -> ~ det d == 0 ->
  pt_eq (apply (getAffineTransform d s) (apply (getAffineTransform s d) p)) p.
Proof.
  destruct s as [[[x0 y0] [x1 y1]] [x2 y2]], d as [[[u0 v0] [u1 v1]] [u2 v2]], p as [x y].
  unfold_affine. intros Hs Hd. split; field; split; assumption.
Qed.

End AffineFacts.

(** ** The keep-aspect-ratio transform *)

Module TransformFacts.
Import Affine Transform AffineFacts.
Local Open Scope Q_scope.

Lemma inject_Z_pos (n : Z) : (0 < n)%Z -> 0 < inject_Z n.
Proof. intros Hn. change 0 with (inject_Z 0). now rewrite <- Zlt_Qlt. Qed.

Lemma scale_pos (H W S : Z) :
  (0 < H)%Z -> (0 < W)%Z -> (0 < S)%Z -> 0 < scale (geometry_of (H, W) (S, S)).
Proof.
  intros HH HW HS. cbn [geometry_of scale].
  apply inject_Z_pos in HH, HW, HS.
  apply Q.min_glb_lt; apply Qlt_shift_div_l; try assumption; lra.
Qed.

Lemma det_src (H W : Z) : det (src_of (H, W)) == inject_Z W * inject_Z H.
Proof. unfold det, src_of; cbn [fst snd]. ring. Qed.

Lemma det_dst (g : geometry) : det (dst_of g) == new_w g * new_h g.
Proof. unfold det, dst_of; cbn [fst snd]. ring. Qed.

Lemma src_proper (H W : Z) : (0 < H)%Z -> (0 < W)%Z -> ~ det (src_of (H, W)) == 0.
Proof.
  intros HH HW. rewrite det_src. apply inject_Z_pos in HH, HW.
  intros E. assert (0 < inject_Z W * inject_Z H) by (apply Qmult_lt_0_compat; assumption).
  lra.
Qed.

Lemma dst_proper (H W S : Z) :
  (0 < H)%Z -> (0 < W)%Z -> (0 < S)%Z -> ~ det (dst_of (geometry_of (H, W) (S, S))) == 0.
Proof.
  intros HH HW HS. rewrite det_dst.
  pose proof (scale_pos H W S HH HW HS) as Hs.
  cbn [geometry_of scale new_w new_h] in *.
  set (s := Qmin _ _) in *.
  apply inject_Z_pos in HH, HW.
  assert (0 < inject_Z W * s) by (apply Qmult_lt_0_compat; assumption).
  assert (0 < inject_Z H * s) by (apply Qmult_lt_0_compat; assumption).
  assert (0 < (inject_Z W * s) * (inject_Z H * s)) by (apply Qmult_lt_0_compat; assumption).
  intros E. lra.
Qed.

(** C1: with the inverse requested, [getTransformMat] returns a forward
    and an inverse matrix, and mapping each of the four corners of the
    original image forward and then back gives the corner again
    (exactly, in rational arithmetic). *)
Theorem getTransformMat_inverse_roundtrip (H W S : Z) :
  (0 < H)%Z -> (0 < W)%Z -> (0 < S)%Z ->
  exists fwd inv : mat,
    getTransformMat (S, S) (H, W) true = (fwd, Some inv) /\
    Forall (fun p => pt_eq (apply inv (apply fwd p)) p)
           [(0, 0); (inject_Z W, 0); (0, inject_Z H); (inject_Z W, inject_Z H)].
Proof.
  intros HH HW HS. eexists _, _. split; [reflexivity|].
  apply Forall_forall. intros p _.
  apply getAffineTransform_inverse; [now apply src_proper | now apply dst_proper].
Qed.

(** C2: the forward matrix sends the corners (0,0), (W,0), (0,H) to
    (bias_x,bias_y), (new_w+bias_x,bias_y), (bias_x,new_h+bias_y) for
    scale = min(S/H, S/W), new_h = H*scale, new_w = W*scale,
    bias_x = (S-new_w)/2, bias_y = (S-new_h)/2; it is the only affine
    map that does, namely [[scale 0 bias_x] [0 scale bias_y]]; and a
    100x200 image with target size 50 has scale 1/4, new_h 25, new_w 50,
    bias_x 0 and bias_y 25/2. *)
Theorem getTransformMat_forward_map (H W S : Z) :
  (0 < H)%Z -> (0 < W)%Z -> (0 < S)%Z ->
  let scale := Qmin (inject_Z S / inject_Z H) (inject_Z S / inject_Z W) in
  let new_h := inject_Z H * scale in
  let new_w := inject_Z W * scale in
  let bias_x := (inject_Z S - new_w) / 2 in
  let bias_y := (inject_Z S - new_h) / 2 in
  let fwd := fst (getTransformMat (S, S) (H, W) true) in
  (pt_eq (apply fwd (0, 0)) (bias_x, bias_y) /\
   pt_eq (apply fwd (inject_Z W, 0)) (new_w + bias_x, bias_y) /\
   pt_eq (apply fwd (0, inject_Z H)) (bias_x, new_h + bias_y)) /\
  (forall m : mat,
      pt_eq (apply m (0, 0)) (bias_x, bias_y) ->
      pt_eq (apply m (inject_Z W, 0)) (new_w + bias_x, bias_y) ->
      pt_eq (apply m (0, inject_Z H)) (bias_x, new_h + bias_y) ->
      mat_eq m fwd) /\
  mat_eq fwd (Mat scale 0 bias_x 0 scale bias_y) /\
  (let g := geometry_of (100, 200)%Z (50, 50)%Z in
   Transform.scale g == 1 # 4 /\ Transform.new_h g == 25 /\ Transform.new_w g == 50 /\
   Transform.bias_x g == 0 /\ Transform.bias_y g == 25 # 2).
Proof.
  intros HH HW HS scale new_h new_w bias_x bias_y fwd.
  pose proof (src_proper H W HH HW) as Hsrc.
  split; [|split; [|split]].
  - exact (getAffineTransform_maps (src_of (H, W)) (dst_of (geometry_of (H, W) (S, S))) Hsrc).
  - intros m. exact (getAffineTransform_unique (src_of (H, W)) (dst_of (geometry_of (H, W) (S, S))) m Hsrc).
  - clear Hsrc. apply inject_Z_pos in HH, HW.
    subst fwd bias_x bias_y new_h new_w scale.
    unfold getTransformMat, geometry_of, src_of, dst_of, mat_eq,
      getAffineTransform, solve_row, det.
    cbn [fst snd m00 m01 m02 m10 m11 m12 Transform.scale Transform.new_h
         Transform.new_w Transform.bias_x Transform.bias_y].
    set (s := Qmin _ _).
    repeat split; field; lra.
  - vm_compute. repeat split; reflexivity.
Qed.
Lemma getTransformMat_inverse_roundtrip_witness :
  ((0 < 100)%Z /\ (0 < 200)%Z /\ (0 < 50)%Z) /\
  exists fwd inv : mat,
    getTransformMat (50, 50)%Z (100, 200)%Z true = (fwd, Some inv) /\
    Forall (fun p => pt_eq (apply inv (apply fwd p)) p)
           [(0, 0); (inject_Z 200, 0); (0, inject_Z 100); (inject_Z 200, inject_Z 100)].
Proof.
  split; [lia |]. apply (getTransformMat_inverse_roundtrip 100 200 50); lia.
Defined.

Lemma getTransformMat_forward_map_witness :
  ((0 < 100)%Z /\ (0 < 200)%Z /\ (0 < 50)%Z) /\
  let g := geometry_of (100, 200)%Z (50, 50)%Z in
  mat_eq (fst (getTransformMat (50, 50)%Z (100, 200)%Z true))
         (Mat (scale g) 0 (bias_x g) 0 (scale g) (bias_y g)).
Proof.
  split; [lia |].
  destruct (getTransformMat_forward_map 100 200 50) as (_ & _ & E & _); [lia .. |].
  exact E.
Defined.

End TransformFacts.

(** ** The tokenizer adapter *)

Module TokenizeFacts.
Import Tokenize.
Section WithTokenizer.
Context `{Tokenizer}.

Lemma length_framed text : Z.of_nat (length (framed text)) = Z.of_nat (length (encode text)) + 2.
Proof. unfold framed. rewrite !length_app. cbn [length]. lia. Qed.

Lemma torch_zeros_ok (n : nat) (L : Z) :
  0 <= L -> torch_zeros n L = Ok (replicate n (replicate (Z.to_nat L) 0)).
Proof. intros HL. unfold torch_zeros. destruct (Z.ltb_spec L 0); [lia | reflexivity]. Qed.

Lemma assign_prefix_zeros (tokens : list Z) (n : nat) :
  (length tokens <= n)%nat ->
  assign_prefix (replicate n 0) tokens = Ok (tokens ++ replicate (n - length tokens) 0)%list.
Proof.
  intros Hn. unfold assign_prefix. rewrite length_replicate.
  destruct (Nat.leb_spec (length tokens) n); [| lia].
  now rewrite drop_replicate.
Qed.

Lemma tokenize_single (text : string) (L : Z) (truncate : bool) :
  0 <= L ->
  tokenize (inl text) L truncate =
    (row ← tokenize_step [text] L truncate 0 (framed text) [replicate (Z.to_nat L) 0];
     Ok (T2 row)).
Proof.
  intros HL. unfold tokenize. cbn [map length].
  rewrite torch_zeros_ok by assumption. cbn [replicate mbind res_bind tokenize_loop].
  destruct (tokenize_step _ _ _ _ _ _); reflexivity.
Qed.

(** Truncation: the first [L] tokens, the last of them overwritten. *)
Lemma tokenize_cut (text : string) (L : Z) :
  0 < L ->
  Z.of_nat (length (encode text)) + 2 > L ->
  tokenize (inl text) L true =
    Ok (T2 [<[Nat.pred (Z.to_nat L) := eot_token]> (take (Z.to_nat L) (framed text))]).
Proof.
  intros HL Hlong.
  pose proof (length_framed text) as Hlen.
  set (cut := take (Z.to_nat L) (framed text)).
  assert (Hcut : length cut = Z.to_nat L) by (unfold cut; rewrite length_take; lia).
  rewrite tokenize_single by lia. unfold tokenize_step.
  destruct (Z.gtb_spec (Z.of_nat (length (framed text))) L); [| lia].
  unfold py_slice_to. destruct (Z.ltb_spec L 0); [lia |]. fold cut.
  unfold py_set_last. destruct cut as [| c cut'] eqn:Ecut; [cbn in Hcut; lia |].
  rewrite <- Ecut in *. cbn [mbind res_bind lookup list_lookup default from_option id].
  rewrite assign_prefix_zeros by (rewrite length_insert; lia).
  rewrite length_insert, Hcut, Nat.sub_diag. cbn [replicate mbind res_bind].
  rewrite app_nil_r. reflexivity.
Qed.

(** A text that fits is left-packed and zero-padded to the context
    length, whatever [truncate] says. *)
Lemma tokenize_fits (text : string) (L : Z) (truncate : bool) :
  Z.of_nat (length (encode text)) + 2 <= L ->
  tokenize (inl text) L truncate =
    Ok (T2 [framed text ++ replicate (Z.to_nat L - length (framed text)) 0])%list.
Proof.
  intros Hfit. pose proof (length_framed text) as Hlen.
  rewrite tokenize_single by lia. unfold tokenize_step.
  destruct (Z.gtb_spec (Z.of_nat (length (framed text))) L); [lia |].
  cbn [mbind res_bind lookup list_lookup default from_option id].
  rewrite assign_prefix_zeros by lia. reflexivity.
Qed.

(** With truncation on, any text gives one row of the context length,
    provided the context length is at least 1. *)
Lemma tokenize_true_total (text : string) (L : Z) :
  0 < L ->
  exists row : list Z,
    tokenize (inl text) L true = Ok (T2 [row]) /\ Z.of_nat (length row) = L.
Proof.
  intros HL. pose proof (length_framed text) as Hlen.
  destruct (Z.le_gt_cases (Z.of_nat (length (encode text)) + 2) L) as [Hfit | Hlong].
  - eexists. split; [now apply tokenize_fits |].
    rewrite length_app, length_replicate. lia.
  - eexists. split; [apply tokenize_cut; lia |].
    rewrite length_insert, length_take. lia.
Qed.

Lemma sentence_vector_total (sents : list string) (idx L : Z) (sent : string) :
  0 < L ->
  py_getitem sents idx = Ok sent ->
  exists row : list Z,
    sentence_vector sents idx L = Ok (T1 row) /\
    tokenize (inl sent) L true = Ok (T2 [row]) /\
    Z.of_nat (length row) = L.
Proof.
  intros HL Hs. destruct (tokenize_true_total sent L HL) as (row & E & Hrow).
  exists row. unfold sentence_vector. rewrite Hs. cbn [mbind res_bind].
  now rewrite E.
Qed.

(** C3: with truncation on and a context length of at least 1, a text
    whose encoding plus the two special tokens exceeds the context
    length comes back as one row of exactly that length, with the
    end-of-text token in its last position (the encoding is cut to make
    room for it). *)
Theorem tokenize_truncates (text : string) (L : Z) :
  0 < L ->
  Z.of_nat (length (encode text)) + 2 > L ->
  exists row : list Z,
    tokenize (inl text) L true = Ok (T2 [row]) /\
    squeeze0 (T2 [row]) = T1 row /\
    Z.of_nat (length row) = L /\
    row !! Z.to_nat (L - 1) = Some eot_token /\
    row = (take (Z.to_nat (L - 1)) (framed text) ++ [eot_token])%list.
Proof.
  intros HL Hlong.
  pose proof (length_framed text) as Hlen.
  exists (<[Nat.pred (Z.to_nat L) := eot_token]> (take (Z.to_nat L) (framed text))).
  split; [now apply tokenize_cut |]. split; [reflexivity |].
  replace (Z.to_nat (L - 1)) with (Nat.pred (Z.to_nat L)) by lia.
  split; [rewrite length_insert, length_take; lia |]. split.
  - apply list_lookup_insert_eq. rewrite length_take. lia.
  - apply list_eq. intros i.
    destruct (decide (i = Nat.pred (Z.to_nat L))) as [-> | Hne].
    + rewrite list_lookup_insert_eq by (rewrite length_take; lia).
      rewrite lookup_app_r by (rewrite length_take; lia).
      rewrite length_take. replace (_ - _)%nat with 0%nat by lia. reflexivity.
    + rewrite list_lookup_insert_ne by congruence.
      destruct (decide (i < Nat.pred (Z.to_nat L))%nat).
      * rewrite lookup_app_l by (rewrite length_take; lia).
        rewrite !lookup_take_lt by lia. reflexivity.
      * rewrite lookup_take_ge by lia.
        rewrite lookup_ge_None_2; [reflexivity |].
        rewrite length_app, length_take. cbn. lia.
Qed.

(** C4: with truncation off, a text whose encoding plus the two special
    tokens exceeds the context length makes [tokenize] fail, never
    return; for a context length that is a valid size the failure is the
    RuntimeError whose message carries the text and the limit. A text
    that fits gives one row of the context length, without error. *)
Theorem tokenize_too_long_raises (text : string) (L : Z) :
  (Z.of_nat (length (encode text)) + 2 > L ->
     is_ok (tokenize (inl text) L false) = false /\
     (0 <= L ->
        tokenize (inl text) L false =
          Err (RuntimeError ("Input " +:+ text +:+ " is too long for context length "
                             +:+ str L)))) /\
  (Z.of_nat (length (encode text)) + 2 <= L ->
     forall truncate : bool,
     exists row : list Z,
       tokenize (inl text) L truncate = Ok (T2 [row]) /\
       Z.of_nat (length row) = L /\
       row = (framed text ++ replicate (Z.to_nat L - length (framed text)) 0)%list).
Proof.
  pose proof (length_framed text) as Hlen. split.
  - intros Hlong.
    assert (Hmsg : 0 <= L ->
              tokenize (inl text) L false = Err (RuntimeError (too_long text L))).
    { intros HL. rewrite tokenize_single by lia. unfold tokenize_step.
      destruct (Z.gtb_spec (Z.of_nat (length (framed text))) L); [| lia].
      reflexivity. }
    split; [| exact Hmsg].
    destruct (Z.le_gt_cases 0 L) as [HL | HL].
    + now rewrite Hmsg.
    + unfold tokenize, torch_zeros. destruct (Z.ltb_spec L 0); [reflexivity | lia].
  - intros Hfit truncate. eexists. split; [now apply tokenize_fits |].
    split; [| reflexivity].
    rewrite length_app, length_replicate. lia.
Qed.


End WithTokenizer.

Lemma tokenize_truncates_witness :
  (0 < 4 /\ Z.of_nat (length (encode (Tokenizer := Demo.tokenizer) "scissors")) + 2 > 4) /\
  exists row : list Z,
    tokenize (H := Demo.tokenizer) (inl "scissors") 4 true = Ok (T2 [row]) /\
    squeeze0 (T2 [row]) = T1 row /\
    Z.of_nat (length row) = 4 /\
    row !! Z.to_nat (4 - 1) = Some (eot_token (Tokenizer := Demo.tokenizer)) /\
    row = (take (Z.to_nat (4 - 1)) (framed (H := Demo.tokenizer) "scissors")
           ++ [eot_token (Tokenizer := Demo.tokenizer)])%list.
Proof.
  assert (Hlong : Z.of_nat (length (encode (Tokenizer := Demo.tokenizer) "scissors")) + 2 > 4)
    by (vm_compute; reflexivity).
  split; [split; [lia | exact Hlong] |].
  apply (tokenize_truncates (H := Demo.tokenizer) "scissors" 4); [lia | exact Hlong].
Defined.

Lemma tokenize_too_long_raises_witness :
  tokenize (H := Demo.tokenizer) (inl "scissors") 4 false =
    Err (RuntimeError "Input scissors is too long for context length 4") /\
  exists row : list Z,
    tokenize (H := Demo.tokenizer) (inl "") 4 false = Ok (T2 [row]) /\
    Z.of_nat (length row) = 4 /\
    row = [49406; 49407; 0; 0].
Proof.
  split.
  - apply (tokenize_too_long_raises (H := Demo.tokenizer) "scissors" 4);
      [vm_compute; reflexivity | lia].
  - apply (tokenize_too_long_raises (H := Demo.tokenizer) "" 4).
    vm_compute. discriminate.
Defined.

(** A context length of 0 leaves no position for the end-of-text token:
    the assignment [tokens[-1] = eot_token] raises. *)
Example tokenize_context_length_0 :
  tokenize (H := Demo.tokenizer) (inl "scissors") 0 true = Err IndexError.
Proof. reflexivity. Qed.

End TokenizeFacts.

(** ** Distributions *)

Module MFacts.

Lemma outcomes_bind {A B} (f : A -> M B) (m : M A) :
  outcomes (m ≫= f) =
    flat_map (fun r => match r with
                       | Ok a => outcomes (f a)
                       | Err e => [Err e]
                       end) (outcomes m).
Proof.
  unfold outcomes, mbind, M_bind.
  induction m as [| [p r] m IH]; [reflexivity |].
  cbn [flat_map map snd fst]. rewrite map_app, IH. f_equal.
  destruct r as [a | e]; [| reflexivity].
  rewrite map_map. reflexivity.
Qed.

Lemma outcomes_lift_bind {A B} (f : A -> M B) (r : res A) :
  outcomes (lift r ≫= f) =
    match r with
    | Ok a => outcomes (f a)
    | Err e => [Err e]
    end.
Proof. rewrite outcomes_bind. cbn. now rewrite app_nil_r. Qed.

Lemma bind_lift_err {A B} (f : A -> M B) (e : exn) : lift (Err e) ≫= f = raise e.
Proof. reflexivity. Qed.


Lemma prob_cons {A} (o : Q * res A) (m : M A) (ev : res A -> bool) :
  prob (o :: m) ev = if ev (snd o) then (fst o + prob m ev)%Q else prob m ev.
Proof. reflexivity. Qed.



Lemma same_dist_refl {A} (m : M A) : same_dist m m.
Proof. induction m; constructor; [split; reflexivity | assumption]. Qed.

Lemma same_dist_trans {A} (m1 m2 m3 : M A) :
  same_dist m1 m2 -> same_dist m2 m3 -> same_dist m1 m3.
Proof.
  intros H12. revert m3. induction H12 as [| o1 o2 m1 m2 [Hw Hr] _ IH]; intros m3 H23.
  - exact H23.
  - inversion H23 as [| ? o3 ? m3' [Hw' Hr'] Hrest]; subst.
    constructor; [split; [now rewrite Hw | congruence] | now apply IH].
Qed.

Lemma same_dist_outcomes {A} (m m' : M A) : same_dist m m' -> outcomes m = outcomes m'.
Proof.
  induction 1 as [| o o' m m' [_ Hr] _ IH]; [reflexivity |].
  unfold outcomes in *. cbn [map]. now rewrite Hr, IH.
Qed.

Lemma same_dist_prob {A} (m m' : M A) (ev : res A -> bool) :
  same_dist m m' -> (prob m ev == prob m' ev)%Q.
Proof.
  induction 1 as [| o o' m m' [Hw Hr] _ IH]; [reflexivity |].
  rewrite !prob_cons, Hr. destruct (ev (snd o')); [now rewrite Hw, IH | exact IH].
Qed.

Lemma same_dist_of_eq {A} (m m' : M A) : m = m' -> same_dist m m'.
Proof. intros ->. apply same_dist_refl. Qed.

(** A step that cannot draw or fail does not change the distribution. *)
Lemma bind_lift_ok {A B} (a : A) (f : A -> M B) : same_dist (lift (Ok a) ≫= f) (f a).
Proof.
  unfold mbind, M_bind, lift. cbn [flat_map snd fst]. rewrite app_nil_r.
  induction (f a) as [| o m IH]; constructor; [| exact IH].
  split; [cbn; ring | reflexivity].
Qed.

(** A uniform draw followed by a step that neither draws nor depends
    on anything else: one outcome per index, all of the same weight. *)
Lemma bind_choice {B} (n : Z) (k : Z -> M B) (r : Z -> res B) :
  0 < n ->
  (forall i, k i = lift (r i)) ->
  same_dist (np_random_choice n ≫= k)
            (map (fun i => ((1 / inject_Z n)%Q, r (Z.of_nat i))) (seq 0 (Z.to_nat n))).
Proof.
  intros Hn Hk. unfold np_random_choice. destruct (Z.leb_spec n 0); [lia |].
  unfold mbind, M_bind. induction (seq 0 (Z.to_nat n)) as [| i l IH]; [constructor |].
  cbn [map flat_map snd fst]. rewrite Hk. cbn [lift map app].
  constructor; [| exact IH]. split; [cbn [fst]; ring | reflexivity].
Qed.

Lemma map_const_seq {A} (x : A) (s n : nat) : map (fun _ => x) (seq s n) = replicate n x.
Proof. revert s. induction n as [| n IH]; intros s; [reflexivity |]. cbn. now rewrite IH. Qed.

Lemma bind_ext {A B} (m : M A) (f g : A -> M B) :
  (forall a, f a = g a) -> m ≫= f = m ≫= g.
Proof.
  intros Hfg. unfold mbind, M_bind. induction m as [| [p [a | e]] m IH];
    cbn [flat_map snd fst]; [reflexivity | now rewrite Hfg, IH | now rewrite IH].
Qed.

End MFacts.

(** ** The sample-tensor converter *)

Module TensorFacts.
Import Tensor.
Local Open Scope Q_scope.

Lemma at2_map {A B} (f : A -> B) (a : list (list A)) (i j : nat) :
  at2 (map (map f) a) i j = f <$> at2 a i j.
Proof.
  unfold at2. change (map (map f) a) with (fmap (M := list) (fmap (M := list) f) a).
  rewrite list_lookup_fmap. destruct (a !! i) as [row |]; [| reflexivity].
  cbn. apply list_lookup_fmap.
Qed.

Lemma channel_rgb_map {A B} (f : nat -> A -> B) (p : rgb A) (c : nat) :
  channel c (rgb_map f p) = f (Nat.min c 2) (channel c p).
Proof. destruct c as [| [| [| c]]]; reflexivity. Qed.

Lemma channel_min {A} (p : rgb A) (c : nat) : channel (Nat.min c 2) p = channel c p.
Proof. destruct c as [| [| [| c]]]; reflexivity. Qed.

Lemma float_is_float {A} (t : array A) :
  dtype_of (if is_FloatTensor t then t else float t) = float32 /\
  data (if is_FloatTensor t then t else float t) = data t.
Proof. destruct t as [[] d]; split; reflexivity. Qed.

(** C5: [convert] returns a float32 image tensor whose entry at channel
    [c], row [i], column [j] is the input's entry at row [i], column
    [j], channel [c] (the transposition to channel-first), divided by
    255, then reduced by the channel's mean, then divided by the
    channel's std; a mask given alongside comes back as float32 with
    its entries unchanged, and no mask gives no mask. *)
Theorem convert_normalizes (mean std : rgb Q) (img : array hwc) (mask : option (array plane)) :
  let out := convert mean std img mask in
  dtype_of (fst out) = float32 /\
  (forall c i j : nat,
      at2 (channel c (data (fst out))) i j =
        (fun px => (channel c px / 255 - channel c mean) / channel c std)
          <$> at2 (data img) i j) /\
  snd out = (fun m => Array float32 (data m)) <$> mask.
Proof.
  cbn zeta. unfold convert. cbn [fst snd].
  set (t := Array (dtype_of img) (transpose_201 (data img))).
  destruct (float_is_float t) as [Hdt Hdata]. split; [exact Hdt |]. split.
  - intros c i j. unfold div_chan, sub_chan, div_. cbn [data]. rewrite Hdata.
    unfold t, transpose_201, plane_map. cbn [data].
    rewrite !channel_rgb_map, !at2_map.
    destruct (at2 (data img) i j) as [px |]; [| reflexivity].
    cbn [fmap option_fmap option_map]. now rewrite !channel_min.
  - destruct mask as [[[] d] |]; reflexivity.
Qed.

(** The order is observable: dividing by 255 after the subtraction
    gives another value. *)
Example convert_order_matters :
  let img := Array uint8 [[(255, 0, 0)]] in
  at2 (channel 0 (data (fst (convert clip_mean clip_std img None)))) 0 0
    = Some ((255 / 255 - channel 0 clip_mean) / channel 0 clip_std) /\
  ~ (255 / 255 - channel 0 clip_mean) / channel 0 clip_std
    == (255 - channel 0 clip_mean) / channel 0 clip_std / 255.
Proof. split; [reflexivity |]. vm_compute. discriminate. Qed.

End TensorFacts.

(** ** The manifest-backed dataset *)

Module EndoVisFacts.
Import EndoVisDataset MFacts.
Section WithExternals.
Context `{Externals}.




(** In val mode everything after the sentence index is drawn is one
    fixed result: the draw is not used. *)
Lemma getitem_val (self : t) (index : Z) (entry : manifest_entry)
    (ori_img : Tensor.array Tensor.hwc) :
  mode self = "val" ->
  py_getitem (data self) index = Ok entry ->
  imread_color (os_path_join (data_root self) (me_img_path entry)) = Some ori_img ->
  let img := cvtColor_BGR2RGB ori_img in
  let img_size := Tensor.shape2 (Tensor.data img) in
  let tm := getTransformMat self img_size true in
  let warped := warpAffine_img img (fst tm) (input_size self) INTER_CUBIC Tensor.border_value in
  let result : res sample :=
    word_vec ← Tokenize.sentence_vector (me_sents entry) 0 (word_length self);
    Ok (ValSample (fst (convert self warped None)) word_vec
                  (ValParams (os_path_join (data_root self) (me_mask_path entry))
                             (snd tm) img_size)) in
  same_dist (__getitem__ self index) (_ ← select_idx self entry; lift result).
Proof.
  intros Hm He Hi. cbn zeta. unfold __getitem__. rewrite He.
  eapply same_dist_trans; [apply bind_lift_ok |]. cbn beta. rewrite Hi. cbn [cv_arg].
  eapply same_dist_trans; [apply bind_lift_ok |]. cbn beta.
  apply same_dist_of_eq, bind_ext. intros idx.
  unfold getTransformMat, Transform.getTransformMat. cbn [fst snd]. rewrite Hm.
  change (String.eqb "val" "train") with false.
  change (String.eqb "val" "val") with true. cbn iota.
  destruct (Tokenize.sentence_vector _ _ _); reflexivity.
Qed.

(** C10: in val mode the returned sample is built from the first
    sentence of the record under either supported policy: with 'first'
    the access has this single result, with 'random' (and a positive
    sentence count) every possible draw has it; and when the record has
    a first sentence and the word length is at least 1, the result is a
    val sample whose text tensor is the tokenization of that sentence. *)
Theorem val_mode_ignores_policy (self : t) (index : Z) (entry : manifest_entry)
    (ori_img : Tensor.array Tensor.hwc) :
  mode self = "val" ->
  py_getitem (data self) index = Ok entry ->
  imread_color (os_path_join (data_root self) (me_img_path entry)) = Some ori_img ->
  let img := cvtColor_BGR2RGB ori_img in
  let img_size := Tensor.shape2 (Tensor.data img) in
  let tm := getTransformMat self img_size true in
  let warped := warpAffine_img img (fst tm) (input_size self) INTER_CUBIC Tensor.border_value in
  let params := ValParams (os_path_join (data_root self) (me_mask_path entry))
                          (snd tm) img_size in
  let result : res sample :=
    word_vec ← Tokenize.sentence_vector (me_sents entry) 0 (word_length self);
    Ok (ValSample (fst (convert self warped None)) word_vec params) in
  (sents_select_type self = "first" ->
     same_dist (__getitem__ self index) (lift result)) /\
  (sents_select_type self = "random" -> 0 < me_num_sents entry ->
     same_dist (__getitem__ self index)
               (replicate (Z.to_nat (me_num_sents entry))
                          ((1 / inject_Z (me_num_sents entry))%Q, result))) /\
  (forall sent : string,
      0 < word_length self ->
      py_getitem (me_sents entry) 0 = Ok sent ->
      exists row : list Z,
        Tokenize.tokenize (inl sent) (word_length self) true = Ok (Tokenize.T2 [row]) /\
        result = Ok (ValSample (fst (convert self warped None)) (Tokenize.T1 row) params)).
Proof.
  intros Hm He Hi img img_size tm warped params result.
  pose proof (getitem_val self index entry ori_img Hm He Hi) as Hval. cbn zeta in Hval.
  fold img img_size tm warped params result in Hval.
  split; [| split].
  - intros Hp. eapply same_dist_trans; [exact Hval |].
    unfold select_idx. rewrite Hp. exact (bind_lift_ok 0 (fun _ => lift result)).
  - intros Hp Hn. eapply same_dist_trans; [exact Hval |].
    unfold select_idx. rewrite Hp. change (String.eqb "random" "random") with true.
    cbn iota. rewrite <- (map_const_seq _ 0).
    now apply (bind_choice _ _ (fun _ => result)).
  - intros sent HL Hs.
    destruct (TokenizeFacts.sentence_vector_total _ _ _ _ HL Hs) as (row & Ev & Et & _).
    exists row. split; [exact Et |]. unfold result. now rewrite Ev.
Qed.

End WithExternals.


Lemma val_mode_ignores_policy_witness :
  exists r : res sample,
    same_dist (__getitem__ (H := Demo.externals) (Demo.endovis_dataset "val" "random") 0)
              (replicate 2 ((1 / inject_Z 2)%Q, r)) /\
    is_ok r = true.
Proof.
  edestruct (val_mode_ignores_policy (H := Demo.externals)
               (Demo.endovis_dataset "val" "random") 0) as (_ & Hr & _);
    [reflexivity .. |].
  eexists. split; [apply Hr; [reflexivity | cbn; lia] | reflexivity].
Defined.

End EndoVisFacts.

(** ** The store-backed dataset *)

Module RefDatasetFacts.
Import RefDataset MFacts.
Section WithExternals.
Context `{Externals}.

(** The object once [_init_db] has run to its end. *)
Lemma init_db_ok (self : t) (log : list event) (store : gmap string pyobj) (n ks : pyobj) :
  lmdb_open (lmdb_dir self) = Ok store ->
  store !! "__len__" = Some n ->
  store !! "__keys__" = Some ks ->
  _init_db self log =
    (set_keys (set_length (set_env self store) n) ks,
     (log ++ [LmdbOpen (lmdb_dir self)])%list, Ok ()).
Proof.
  intros Ho Hn Hk. unfold _init_db, txn_get_loads. rewrite Ho. cbn [env set_env].
  now rewrite Hn, Hk.
Qed.

(** An access on an object whose store is open changes nothing. *)
Lemma getitem_opened (self : t) (log : list event) (index : Z) (e : gmap string pyobj) :
  env self = Some e ->
  __getitem__ self log index = (self, log, _ ← lift (Ok ()); getitem_open self index).
Proof. intros He. unfold __getitem__. now rewrite He. Qed.

Lemma accesses_opened (self : t) (log : list event) (indices : list Z) (e : gmap string pyobj) :
  env self = Some e -> accesses self log indices = (self, log).
Proof.
  intros He. unfold accesses. induction indices as [| index indices IH]; [reflexivity |].
  cbn [fold_left fst snd]. rewrite (getitem_opened _ _ _ _ He). exact IH.
Qed.

(** C7: a constructed object has no store handle and no key list, and
    its length is the entry of [info] for the dataset and split. When
    the store opens and holds [__len__] and [__keys__], the first access
    (whatever it then returns) leaves the object with the handle, with
    the length and key list read from those two entries, and with one
    [lmdb.open] call logged; any further accesses leave the object and
    the log as they are. *)
Theorem lazy_open (lmdb_dir mask_dir dataset split mode : string)
    (input_size word_length : Z) (self : t) (store : gmap string pyobj) (n ks : pyobj) :
  __init__ lmdb_dir mask_dir dataset split mode input_size word_length = Ok self ->
  lmdb_open lmdb_dir = Ok store ->
  store !! "__len__" = Some n ->
  store !! "__keys__" = Some ks ->
  (env self = None /\ keys self = None /\
   exists (by_dataset : gmap string Z) (size : Z),
     info !! dataset = Some by_dataset /\ by_dataset !! split = Some size /\
     __len__ self = PyInt size) /\
  forall index : Z,
    let '(self1, log1, _) := __getitem__ self [] index in
    (env self1 = Some store /\ __len__ self1 = n /\ keys self1 = Some ks /\
     log1 = [LmdbOpen lmdb_dir]) /\
    forall indices : list Z, accesses self1 log1 indices = (self1, log1).
Proof.
  intros Hinit Ho Hn Hk. unfold __init__, dict_getitem in Hinit.
  destruct (info !! dataset) as [by_dataset |] eqn:Ed; [| discriminate].
  cbn [mbind res_bind] in Hinit.
  destruct (by_dataset !! split) as [size |] eqn:Es; [| discriminate].
  cbn [mbind res_bind] in Hinit. injection Hinit as <-.
  split.
  - split; [reflexivity |]. split; [reflexivity |]. now exists by_dataset, size.
  - intros index. unfold __getitem__. cbn [env].
    rewrite (init_db_ok _ _ store n ks) by assumption.
    split; [now repeat split |].
    intros indices. now apply (accesses_opened _ _ _ store).
Qed.

(** Whether the store was open or is opened by this access, the access
    continues on an object that has it open, with the same settings. *)
Lemma getitem_serves (self : t) (log : list event) (index : Z)
    (store : gmap string pyobj) (ks : list string) :
  serves self store ks ->
  exists (self1 : t) (log1 : list event),
    __getitem__ self log index = (self1, log1, _ ← lift (Ok ()); getitem_open self1 index) /\
    env self1 = Some store /\ keys self1 = Some (PyKeys ks) /\
    mode self1 = mode self /\ mask_dir self1 = mask_dir self /\
    input_size self1 = input_size self /\ word_length self1 = word_length self /\
    mean self1 = mean self /\ std self1 = std self.
Proof.
  unfold serves. intros Hs. destruct (env self) as [e |] eqn:He.
  - destruct Hs as [-> Hk]. exists self, log.
    split; [now apply (getitem_opened _ _ _ store) |]. now repeat split.
  - destruct Hs as (Ho & [n Hn] & Hk). eexists _, _. split.
    + unfold __getitem__. rewrite He. rewrite (init_db_ok _ _ store n (PyKeys ks)) by assumption.
      reflexivity.
    + now repeat split.
Qed.

(** On an open store, an access is a uniform draw of the sentence
    index followed by the packaging of the sample for the mode. *)
Lemma getitem_open_dist (self : t) (index : Z) (store : gmap string pyobj)
    (ks : list string) (key : string) (ref : ref_record)
    (ori_img : Tensor.array Tensor.hwc) :
  env self = Some store ->
  keys self = Some (PyKeys ks) ->
  py_getitem ks index = Ok key ->
  store !! key = Some (PyRef ref) ->
  imdecode_color (ref_img ref) = Some ori_img ->
  0 < ref_num_sents ref ->
  let img := cvtColor_BGR2RGB ori_img in
  let img_size := Tensor.shape2 (Tensor.data img) in
  let tm := getTransformMat self img_size true in
  let warped := warpAffine_img img (fst tm) (input_size self) INTER_CUBIC Tensor.border_value in
  let mask_path := os_path_join (mask_dir self) (str (ref_seg_id ref) +:+ ".png") in
  let result (idx : Z) : res sample :=
    if String.eqb (mode self) "train" then
      gray ← cv_arg (imdecode_gray (ref_mask ref));
      let mask := Tensor.np_div (warpAffine_mask gray (fst tm) (input_size self) INTER_LINEAR 0%Q)
                                255%Q in
      word_vec ← Tokenize.sentence_vector (ref_sents ref) idx (word_length self);
      let cv := convert self warped (Some mask) in
      Ok (TrainSample (fst cv) word_vec (snd cv))
    else if String.eqb (mode self) "val" then
      word_vec ← Tokenize.sentence_vector (ref_sents ref) 0 (word_length self);
      Ok (ValSample (fst (convert self warped None)) word_vec
                    (ValParams mask_path (snd tm) img_size))
    else
      Ok (TestSample (fst (convert self warped None))
                     (TestParams ori_img (ref_seg_id ref) mask_path (snd tm) img_size
                                 (ref_sents ref))) in
  same_dist (getitem_open self index)
            (map (fun i => ((1 / inject_Z (ref_num_sents ref))%Q, result (Z.of_nat i)))
                 (seq 0 (Z.to_nat (ref_num_sents ref)))).
Proof.
  intros He Hk Hkey Hrec Himg Hn img img_size tm warped mask_path result.
  unfold getitem_open. rewrite He.
  eapply same_dist_trans; [apply bind_lift_ok |]. cbn beta.
  unfold keys_getitem. rewrite Hk, Hkey.
  eapply same_dist_trans; [apply bind_lift_ok |]. cbn beta.
  unfold txn_get_loads. rewrite Hrec. cbn [mbind res_bind as_ref].
  eapply same_dist_trans; [apply bind_lift_ok |]. cbn beta. rewrite Himg. cbn [cv_arg].
  eapply same_dist_trans; [apply bind_lift_ok |]. cbn beta.
  apply (bind_choice _ _ result Hn). intros idx.
  unfold result, mask_path, warped, tm, img_size, img.
  unfold getTransformMat, Transform.getTransformMat. cbn [fst snd].
  destruct (String.eqb (mode self) "train").
  - destruct (imdecode_gray (ref_mask ref)) as [gray |]; [| reflexivity].
    cbn [cv_arg mbind res_bind].
    destruct (Tokenize.sentence_vector _ _ _); [| reflexivity].
    cbn [mbind res_bind]. unfold convert, Tensor.convert. reflexivity.
  - destruct (String.eqb (mode self) "val"); [| reflexivity].
    destruct (Tokenize.sentence_vector _ _ _); reflexivity.
Qed.

(** The same for any object that serves the store, opened or not. *)
Lemma getitem_dist (self : t) (log : list event) (index : Z) (store : gmap string pyobj)
    (ks : list string) (key : string) (ref : ref_record)
    (ori_img : Tensor.array Tensor.hwc) :
  serves self store ks ->
  py_getitem ks index = Ok key ->
  store !! key = Some (PyRef ref) ->
  imdecode_color (ref_img ref) = Some ori_img ->
  0 < ref_num_sents ref ->
  let img := cvtColor_BGR2RGB ori_img in
  let img_size := Tensor.shape2 (Tensor.data img) in
  let tm := getTransformMat self img_size true in
  let warped := warpAffine_img img (fst tm) (input_size self) INTER_CUBIC Tensor.border_value in
  let mask_path := os_path_join (mask_dir self) (str (ref_seg_id ref) +:+ ".png") in
  let result (idx : Z) : res sample :=
    if String.eqb (mode self) "train" then
      gray ← cv_arg (imdecode_gray (ref_mask ref));
      let mask := Tensor.np_div (warpAffine_mask gray (fst tm) (input_size self) INTER_LINEAR 0%Q)
                                255%Q in
      word_vec ← Tokenize.sentence_vector (ref_sents ref) idx (word_length self);
      let cv := convert self warped (Some mask) in
      Ok (TrainSample (fst cv) word_vec (snd cv))
    else if String.eqb (mode self) "val" then
      word_vec ← Tokenize.sentence_vector (ref_sents ref) 0 (word_length self);
      Ok (ValSample (fst (convert self warped None)) word_vec
                    (ValParams mask_path (snd tm) img_size))
    else
      Ok (TestSample (fst (convert self warped None))
                     (TestParams ori_img (ref_seg_id ref) mask_path (snd tm) img_size
                                 (ref_sents ref))) in
  exists (self1 : t) (log1 : list event) (d : M sample),
    __getitem__ self log index = (self1, log1, d) /\
    serves self1 store ks /\
    same_dist d (map (fun i => ((1 / inject_Z (ref_num_sents ref))%Q, result (Z.of_nat i)))
                     (seq 0 (Z.to_nat (ref_num_sents ref)))).
Proof.
  intros Hs Hkey Hrec Himg Hn img img_size tm warped mask_path result.
  destruct (getitem_serves self log index store ks Hs)
    as (self1 & log1 & E & He & Hk & Hmode & Hdir & Hsize & HL & Hmean & Hstd).
  exists self1, log1, (_ ← lift (Ok ()); getitem_open self1 index).
  split; [exact E |]. split.
  - unfold serves. now rewrite He.
  - eapply same_dist_trans; [apply bind_lift_ok |]. cbn beta.
    pose proof (getitem_open_dist self1 index store ks key ref ori_img
                  He Hk Hkey Hrec Himg Hn) as D.
    cbn zeta in D. unfold getTransformMat, convert in D.
    rewrite Hmode, Hdir, Hsize, HL, Hmean, Hstd in D. exact D.
Qed.

(** C9: in any mode other than 'train' and 'val', an access to a
    readable record returns, whatever index is drawn, the pair of the
    converted image and the bundle of the decoded original image, the
    record's seg_id, the mask path, the inverse transform, the original
    size and all the record's sentences; the result has no text tensor
    and no mask tensor. *)
Theorem test_mode_bundle (self : t) (log : list event) (index : Z)
    (store : gmap string pyobj) (ks : list string) (key : string) (ref : ref_record)
    (ori_img : Tensor.array Tensor.hwc) :
  mode self <> "train" -> mode self <> "val" ->
  serves self store ks ->
  py_getitem ks index = Ok key ->
  store !! key = Some (PyRef ref) ->
  imdecode_color (ref_img ref) = Some ori_img ->
  0 < ref_num_sents ref ->
  let img := cvtColor_BGR2RGB ori_img in
  let img_size := Tensor.shape2 (Tensor.data img) in
  let tm := getTransformMat self img_size true in
  let warped := warpAffine_img img (fst tm) (input_size self) INTER_CUBIC Tensor.border_value in
  let params :=
    TestParams ori_img (ref_seg_id ref)
               (os_path_join (mask_dir self) (str (ref_seg_id ref) +:+ ".png"))
               (snd tm) img_size (ref_sents ref) in
  let out := TestSample (fst (convert self warped None)) params in
  same_dist (snd (__getitem__ self log index))
            (replicate (Z.to_nat (ref_num_sents ref))
                       ((1 / inject_Z (ref_num_sents ref))%Q, Ok out)) /\
  (exists inv : Affine.mat, tp_inverse params = Some inv) /\
  sample_word_vec out = None /\ sample_mask out = None.
Proof.
  intros Ht Hv Hs Hkey Hrec Himg Hn img img_size tm warped params out.
  destruct (getitem_dist self log index store ks key ref ori_img Hs Hkey Hrec Himg Hn)
    as (self1 & log1 & d & E & _ & D).
  rewrite E. cbn [snd]. split; [| split; [| split; reflexivity]].
  - rewrite (proj2 (String.eqb_neq _ _) Ht), (proj2 (String.eqb_neq _ _) Hv) in D.
    rewrite map_const_seq in D. exact D.
  - eexists. reflexivity.
Qed.

Lemma py_getitem_nat {A} (l : list A) (i : nat) (x : A) :
  l !! i = Some x -> py_getitem l (Z.of_nat i) = Ok x.
Proof.
  intros Hx. pose proof (lookup_lt_Some _ _ _ Hx) as Hlt. unfold py_getitem.
  destruct (Z.ltb_spec (Z.of_nat i) 0); [lia |].
  destruct (Z.ltb_spec (Z.of_nat i) 0); [lia |].
  destruct (Z.leb_spec (Z.of_nat (List.length l)) (Z.of_nat i)); [lia |].
  cbn [orb]. now rewrite Nat2Z.id, Hx.
Qed.

Lemma same_dist_sym {A} (m m' : M A) : same_dist m m' -> same_dist m' m.
Proof.
  induction 1 as [| o o' m m' [Hw Hr] _ IH]; constructor; [| exact IH].
  split; [now rewrite Hw | congruence].
Qed.

(** The row [tokenize] makes of a sentence, for a word length of at
    least 1. *)
Lemma sentence_rows (sents : list string) (L : Z) :
  0 < L ->
  exists row : nat -> list Z,
    forall (i : nat) (sent : string),
      sents !! i = Some sent ->
      Tokenize.sentence_vector sents (Z.of_nat i) L = Ok (Tokenize.T1 (row i)) /\
      Tokenize.tokenize (inl sent) L true = Ok (Tokenize.T2 [row i]).
Proof.
  intros HL.
  exists (fun i => match Tokenize.sentence_vector sents (Z.of_nat i) L with
                   | Ok (Tokenize.T1 row) => row
                   | _ => []
                   end).
  intros i sent Hs. apply py_getitem_nat in Hs.
  destruct (TokenizeFacts.sentence_vector_total _ _ _ _ HL Hs) as (row & Ev & Et & _).
  now rewrite Ev.
Qed.

(** C8 (amended): on a readable record with as many sentences as
    [num_sents] says and a word length of at least 1, two consecutive
    accesses to the same index have the same distribution of results.
    In train mode there is one equally likely result per sentence of
    the record, the train sample of that sentence's tokenization, all
    with one image tensor and one mask tensor. In val mode every result
    is the same val sample, with the tokenization of the first sentence.
    In any other mode every result is the same test sample, whose
    bundle holds all the sentences of the record. *)
Theorem repeated_access (self : t) (log : list event) (index : Z)
    (store : gmap string pyobj) (ks : list string) (key : string) (ref : ref_record)
    (ori_img : Tensor.array Tensor.hwc) :
  serves self store ks ->
  py_getitem ks index = Ok key ->
  store !! key = Some (PyRef ref) ->
  imdecode_color (ref_img ref) = Some ori_img ->
  0 < word_length self ->
  0 < ref_num_sents ref ->
  ref_num_sents ref = Z.of_nat (List.length (ref_sents ref)) ->
  let n := ref_num_sents ref in
  let '(self1, log1, d1) := __getitem__ self log index in
  let '(_, _, d2) := __getitem__ self1 log1 index in
  same_dist d1 d2 /\
  (mode self = "train" ->
     forall gray : Tensor.array Tensor.plane,
       imdecode_gray (ref_mask ref) = Some gray ->
       exists (img : Tensor.array Tensor.chw) (mask : option (Tensor.array Tensor.plane))
              (row : nat -> list Z),
         same_dist d1 (map (fun i => ((1 / inject_Z n)%Q,
                                      Ok (TrainSample img (Tokenize.T1 (row i)) mask)))
                           (seq 0 (Z.to_nat n))) /\
         (forall (i : nat) (sent : string),
             ref_sents ref !! i = Some sent ->
             Tokenize.tokenize (inl sent) (word_length self) true
               = Ok (Tokenize.T2 [row i])) /\
         (forall s1 s2 : sample,
             In (Ok s1) (outcomes d1) -> In (Ok s2) (outcomes d2) ->
             sample_img s1 = sample_img s2 /\ sample_mask s1 = sample_mask s2)) /\
  (mode self = "val" ->
     exists (img : Tensor.array Tensor.chw) (row : list Z) (params : val_params)
            (sent : string),
       ref_sents ref !! 0%nat = Some sent /\
       Tokenize.tokenize (inl sent) (word_length self) true = Ok (Tokenize.T2 [row]) /\
       same_dist d1 (replicate (Z.to_nat n)
                               ((1 / inject_Z n)%Q,
                                Ok (ValSample img (Tokenize.T1 row) params))) /\
       (forall r1 r2 : res sample,
           In r1 (outcomes d1) -> In r2 (outcomes d2) -> r1 = r2)) /\
  (mode self <> "train" -> mode self <> "val" ->
     exists (img : Tensor.array Tensor.chw) (params : test_params),
       tp_sents params = ref_sents ref /\
       same_dist d1 (replicate (Z.to_nat n) ((1 / inject_Z n)%Q, Ok (TestSample img params))) /\
       (forall r1 r2 : res sample,
           In r1 (outcomes d1) -> In r2 (outcomes d2) -> r1 = r2)).
Proof.
  intros Hs Hkey Hrec Himg HL Hn Hlen n.
  destruct (getitem_dist self log index store ks key ref ori_img Hs Hkey Hrec Himg Hn)
    as (self1 & log1 & d1 & E1 & Hs1 & D1).
  destruct (getitem_dist self1 log1 index store ks key ref ori_img Hs1 Hkey Hrec Himg Hn)
    as (self2 & log2 & d2 & E2 & _ & D2).
  destruct (getitem_serves self log index store ks Hs)
    as (self1' & log1' & E1' & _ & _ & Hmode & Hdir & Hsize & HL1 & Hmean & Hstd).
  rewrite E1 in E1'. injection E1' as <- <- _.
  rewrite E1, E2. cbn zeta in D1, D2.
  unfold getTransformMat, convert in D1, D2.
  rewrite Hmode, Hdir, Hsize, HL1, Hmean, Hstd in D2.
  fold n in D1, D2.
  assert (D12 : same_dist d1 d2)
    by (eapply same_dist_trans; [exact D1 | apply same_dist_sym; exact D2]).
  pose proof (same_dist_outcomes _ _ D12) as O12.
  split; [exact D12 |]. split; [| split].
  - intros Hm gray Hg. rewrite Hm, Hg in D1.
    change (String.eqb "train" "train") with true in D1. cbn [cv_arg mbind res_bind] in D1.
    destruct (sentence_rows (ref_sents ref) (word_length self) HL) as [row Hrow].
    match type of D1 with context [TrainSample (fst ?c) _ _] => set (cv := c) in D1 end.
    exists (fst cv), (snd cv), row.
    assert (D : same_dist d1
                  (map (fun i => ((1 / inject_Z n)%Q,
                                  Ok (TrainSample (fst cv) (Tokenize.T1 (row i)) (snd cv))))
                       (seq 0 (Z.to_nat n)))).
    { eapply same_dist_trans; [exact D1 |]. apply same_dist_of_eq, map_ext_in.
      intros i Hi. apply in_seq in Hi.
      destruct (lookup_lt_is_Some_2 (ref_sents ref) i) as [sent Hsent]; [lia |].
      destruct (Hrow i sent Hsent) as [-> _]. reflexivity. }
    split; [exact D |]. split; [intros i sent Hsent; now apply (Hrow i sent) |].
    intros s1 s2 H1 H2. rewrite <- O12 in H2.
    rewrite (same_dist_outcomes _ _ D) in H1, H2. unfold outcomes in H1, H2.
    rewrite map_map in H1, H2. cbn [snd] in H1, H2.
    apply in_map_iff in H1 as (i1 & [= <-] & _), H2 as (i2 & [= <-] & _).
    split; reflexivity.
  - intros Hm. rewrite Hm in D1.
    change (String.eqb "val" "train") with false in D1.
    change (String.eqb "val" "val") with true in D1. cbn iota in D1.
    rewrite map_const_seq in D1.
    destruct (lookup_lt_is_Some_2 (ref_sents ref) 0) as [sent Hsent]; [lia |].
    destruct (sentence_rows (ref_sents ref) (word_length self) HL) as [row Hrow].
    destruct (Hrow 0%nat sent Hsent) as [Ev Et]. change (Z.of_nat 0) with 0 in Ev.
    rewrite Ev in D1. cbn [mbind res_bind] in D1.
    eexists _, (row 0%nat), _, sent.
    split; [exact Hsent |]. split; [exact Et |]. split; [exact D1 |].
    intros r1 r2 H1 H2. rewrite <- O12 in H2.
    rewrite (same_dist_outcomes _ _ D1) in H1, H2. unfold outcomes in H1, H2.
    rewrite <- (map_const_seq _ 0), map_map in H1, H2.
    apply in_map_iff in H1 as (i1 & <- & _), H2 as (i2 & <- & _). reflexivity.
  - intros Ht Hv.
    rewrite (proj2 (String.eqb_neq _ _) Ht), (proj2 (String.eqb_neq _ _) Hv) in D1.
    rewrite map_const_seq in D1.
    eexists _, (TestParams _ _ _ _ _ _). split; [| split; [exact D1 |]]; [reflexivity |].
    intros r1 r2 H1 H2. rewrite <- O12 in H2.
    rewrite (same_dist_outcomes _ _ D1) in H1, H2. unfold outcomes in H1, H2.
    rewrite <- (map_const_seq _ 0), map_map in H1, H2.
    apply in_map_iff in H1 as (i1 & <- & _), H2 as (i2 & <- & _). reflexivity.
Qed.

End WithExternals.

Lemma demo_serves (mode : string) :
  serves (H := Demo.externals) (Demo.ref_dataset mode) Demo.store ["0"; "1"].
Proof. split; [reflexivity |]. split; [now exists (PyInt 2) | reflexivity]. Qed.

Lemma lazy_open_witness :
  let '(self1, log1, _) :=
    __getitem__ (H := Demo.externals) (Demo.ref_dataset "val") [] 0 in
  (env self1 = Some Demo.store /\ __len__ self1 = PyInt 2 /\
   keys self1 = Some (PyKeys ["0"; "1"]) /\ log1 = [LmdbOpen "/lmdb/refcoco"]) /\
  forall indices : list Z, accesses (H := Demo.externals) self1 log1 indices = (self1, log1).
Proof.
  exact (proj2 (lazy_open (H := Demo.externals)
                  "/lmdb/refcoco" "/masks" "refcoco" "val" "val" 2 4
                  (Demo.ref_dataset "val") Demo.store (PyInt 2) (PyKeys ["0"; "1"])
                  eq_refl eq_refl eq_refl eq_refl) 0).
Defined.

Lemma test_mode_bundle_witness :
  exists (img : Tensor.array Tensor.chw) (params : test_params),
    same_dist (snd (__getitem__ (H := Demo.externals) (Demo.ref_dataset "anything") [] 0))
              (replicate 2 ((1 / inject_Z 2)%Q, Ok (TestSample img params))) /\
    tp_seg_id params = 7 /\ tp_mask_path params = "/masks/7.png" /\
    tp_ori_size params = (1, 2) /\ tp_sents params = ["scissors"; "the left tool"].
Proof.
  edestruct (test_mode_bundle (H := Demo.externals) (Demo.ref_dataset "anything") [] 0
               Demo.store ["0"; "1"] "0" Demo.record0) as [D _];
    [discriminate | discriminate | apply demo_serves | reflexivity .. | cbn; lia |].
  eexists _, _. split; [exact D |]. repeat split.
Defined.

Lemma repeated_access_witness :
  let '(self1, log1, d1) :=
    __getitem__ (H := Demo.externals) (Demo.ref_dataset "train") [] 0 in
  let '(_, _, d2) := __getitem__ (H := Demo.externals) self1 log1 0 in
  same_dist d1 d2.
Proof.
  pose proof (repeated_access (H := Demo.externals) (Demo.ref_dataset "train") [] 0
                Demo.store ["0"; "1"] "0" Demo.record0
                (Tensor.Array Tensor.uint8 [[(10, 10, 10); (20, 20, 20)]])%Q
                (demo_serves "train") eq_refl eq_refl eq_refl) as P.
  cbn zeta in P. specialize (P ltac:(cbn; lia) ltac:(cbn; lia) eq_refl).
  destruct (__getitem__ (H := Demo.externals) (Demo.ref_dataset "train") [] 0)
    as [[self1 log1] d1].
  destruct (__getitem__ (H := Demo.externals) self1 log1 0) as [[self2 log2] d2].
  exact (proj1 P).
Defined.

(** In train mode the two accesses can differ in the text tensor. *)
Example train_mode_sentences_differ :
  exists (s1 s2 : sample),
    In (Ok s1) (outcomes (snd (__getitem__ (H := Demo.externals)
                                 (Demo.ref_dataset "train") [] 0))) /\
    In (Ok s2) (outcomes (snd (__getitem__ (H := Demo.externals)
                                 (Demo.ref_dataset "train") [] 0))) /\
    sample_word_vec s1 = Some (Tokenize.T1 [49406; 115; 99; 49407]) /\
    sample_word_vec s2 = Some (Tokenize.T1 [49406; 116; 104; 49407]).
Proof.
  eexists _, _. split; [left; vm_compute; reflexivity |].
  split; [right; left; vm_compute; reflexivity |]. split; reflexivity.
Qed.

(** In test mode no sentence is chosen: the result has no text tensor,
    so it does not carry the tokenization of the first sentence. *)
Lemma test_mode_chooses_no_sentence :
  ~ (forall s : sample,
        In (Ok s) (outcomes (snd (__getitem__ (H := Demo.externals)
                                    (Demo.ref_dataset "test") [] 0))) ->
        exists (sent : string) (row : list Z),
          ref_sents Demo.record0 !! 0%nat = Some sent /\
          Tokenize.tokenize (H := Demo.tokenizer) (inl sent) 4 true
            = Ok (Tokenize.T2 [row]) /\
          sample_word_vec s = Some (Tokenize.T1 row)).
Proof.
  intros Hc.
  assert (Hin : exists (img : Tensor.array Tensor.chw) (params : test_params),
             In (Ok (TestSample img params))
                (outcomes (snd (__getitem__ (H := Demo.externals)
                                  (Demo.ref_dataset "test") [] 0))))
    by (eexists _, _; left; vm_compute; reflexivity).
  destruct Hin as (img & params & Hin).
  destruct (Hc _ Hin) as (sent & row & _ & _ & Hw). discriminate Hw.
Qed.

End RefDatasetFacts.
